(** * JC3D math: the three-dimensional vector [Vector<3, T>]

    A shallow embedding of [Engine/Source/Public/Math/Vector3.h]; the
    file utilities of [Engine/Source/Private/System/File.cpp] follow in
    the module [File].

    - The element type [T] is a template parameter: it is modelled by the
      class [Element], which carries value-initialisation [T()] and the
      operators the code applies to elements.  Algebraic facts are stated
      for element types with exact arithmetic ([ExactArith]: the operators
      form a commutative ring), e.g. the integers or integers modulo [2^w].
    - [std::array<T, 3>] is a [vec T 3]; the anonymous union puts the
      fields [X], [Y], [Z] on the cells 0, 1, 2 of that array.
    - [assert] is modelled with assertions enabled: a failed assertion
      ends the computation with the signal [AssertionFailure]. *)

From Stdlib Require Import Floats.
From Stdlib Require Import ZArith Ring Reals Lra.
From Stdlib Require Import ZmodDef ZmodBase.
From stdpp Require Import base fin list vector.
From Stdlib Require Import Ascii.
From stdpp Require Import strings gmap.

(** ** Element types *)

(** What the vector code asks of [T]: [T()] and the arithmetic operators. *)
Class Element (T : Type) := {
  value_init : T;          (* T() *)
  zero : T;                (* the literal 0 converted to T *)
  one : T;                 (* the literal 1 converted to T *)
  add : T -> T -> T;       (* operator+ *)
  sub : T -> T -> T;       (* operator- *)
  mul : T -> T -> T;       (* operator* *)
  neg : T -> T             (* unary operator- *)
}.

Declare Scope elem_scope.
Delimit Scope elem_scope with E.
Infix "+" := add : elem_scope.
Infix "-" := sub : elem_scope.
Infix "*" := mul : elem_scope.
Notation "- x" := (neg x) : elem_scope.

(** A numeric element type whose arithmetic is exact: value-initialisation
    gives zero and the operators satisfy the ring laws. *)
Class ExactArith (T : Type) `{Element T} : Prop := {
  value_init_zero : value_init = zero;
  elem_ring : ring_theory zero one add mul sub neg (@eq T)
}.

(** The integers. *)
#[export] Instance Z_Element : Element Z := {|
  value_init := 0%Z; zero := 0%Z; one := 1%Z;
  add := Z.add; sub := Z.sub; mul := Z.mul; neg := Z.opp
|}.

#[export] Instance Z_ExactArith : ExactArith Z.
Proof. split; [reflexivity | exact Zth]. Qed.

(** Unsigned 32-bit integers: arithmetic modulo [2^32]. *)
Definition uint32 : Type := Zmod.Zmod (2 ^ 32).

#[export] Instance uint32_Element : Element uint32 := {|
  value_init := Zmod.zero; zero := Zmod.zero; one := Zmod.one;
  add := Zmod.add; sub := Zmod.sub; mul := Zmod.mul; neg := Zmod.opp
|}.

#[export] Instance uint32_ExactArith : ExactArith uint32.
Proof. split; [reflexivity | apply Zmod.ring_theory]. Qed.

(** The real numbers. *)
#[export] Instance R_Element : Element R := {|
  value_init := 0%R; zero := 0%R; one := 1%R;
  add := Rplus; sub := Rminus; mul := Rmult; neg := Ropp
|}.

#[export] Instance R_ExactArith : ExactArith R.
Proof. split; [reflexivity | exact RTheory]. Qed.

(** What the comparison, the scalar division and the length of the base
    class ask of [T] besides. *)
Class Numeric (T : Type) := {
  elem_eqb : T -> T -> bool;   (* operator== *)
  elem_div : T -> T -> T;      (* operator/ *)
  elem_sqrt : T -> T           (* the square root, converted back to T *)
}.

(** [int], for values within its range: division truncates towards zero
    and the conversion of the square root drops its fraction. *)
#[export] Instance Z_Numeric : Numeric Z := {|
  elem_eqb := Z.eqb; elem_div := Z.quot; elem_sqrt := Z.sqrt
|}.

(** The real numbers: exact division and square root. *)
#[export] Instance R_Numeric : Numeric R := {|
  elem_eqb := fun x y => if Req_dec_T x y then true else false;
  elem_div := Rdiv; elem_sqrt := sqrt
|}.

(** [double]: IEEE 754 binary64, with its rounding, infinities and NaN. *)
#[export] Instance double_Element : Element float := {|
  value_init := 0%float; zero := 0%float; one := 1%float;
  add := PrimFloat.add; sub := PrimFloat.sub; mul := PrimFloat.mul;
  neg := PrimFloat.opp
|}.

#[export] Instance double_Numeric : Numeric float := {|
  elem_eqb := PrimFloat.eqb; elem_div := PrimFloat.div;
  elem_sqrt := PrimFloat.sqrt
|}.

(** ** Signals and results *)

(** The ways an operation can end without a value. *)
Inductive Signal : Set :=
  | AssertionFailure   (* a failed [assert] *)
  | OutOfRange         (* a failed bounds check *)
  | DomainError.       (* division by zero *)

(** A computation that returns a value or ends with a signal. *)
Definition Result (A : Type) : Type := Signal + A.

Definition ret {A} (a : A) : Result A := inr a.
Definition raise {A} (s : Signal) : Result A := inl s.
Definition bind {A B} (m : Result A) (k : A -> Result B) : Result B :=
  match m with
  | inl s => inl s
  | inr a => k a
  end.

(** [assert(c)] with assertions enabled. *)
Definition assert_ (c : bool) : Result unit :=
  if c then ret tt else raise AssertionFailure.

Notation "m ;> k" := (bind m (fun _ => k))
  (at level 90, right associativity).

(** ** Storage *)

(** Aggregate initialisation of a [std::array<T, N>] from a braced list of
    at most [N] initialisers: the elements are taken from the list in
    order, and those with no initialiser are value-initialised.
    (A braced list longer than [N] is rejected by the compiler; here the
    surplus is dropped.) *)
Fixpoint aggregate_init {T} (dflt : T) (N : nat) (args : list T) : vec T N :=
  match N with
  | O => [#]
  | S n =>
      match args with
      | [] => dflt ::: aggregate_init dflt n []
      | x :: rest => x ::: aggregate_init dflt n rest
      end
  end.

(** [std::copy(args.begin(), args.end(), d.begin())] for a list of at most
    [N] values: the values of the list go to the leading cells, and the
    cells beyond the list keep what they held. *)
Definition copy_values {T} {N : nat} (d : vec T N) (args : list T) : vec T N :=
  fun_to_vec (fun i : fin N => default (d !!! i) (args !! fin_to_nat i)).

(** ** The vector types *)

Section Vectors.
Context {T : Type} `{Element T}.

(** Modelled from the spec: the two-dimensional vector [Vector<2, T>]
    ([Vector2.h] is not part of the sources): two elements, the fields
    [X] and [Y] on the cells 0 and 1. *)
Record Vector2 : Type := mkVector2 { Data2 : vec T 2 }.

Definition get_X2 (v : Vector2) : T := Data2 v !!! 0%fin.
Definition get_Y2 (v : Vector2) : T := Data2 v !!! 1%fin.

Definition Vector2_xy (x y : T) : Vector2 :=
  {| Data2 := aggregate_init value_init 2 [x; y] |}.

(** [Vector<3, T>]: the union of [Data] and the struct [{X, Y, Z}] is one
    array of three cells. *)
Record Vector3 : Type := mkVector3 { Data : vec T 3 }.

(** The struct view of the union: each field is the cell at its place in
    declaration order. *)
Inductive Field : Set := FX | FY | FZ.

Definition field_cell (f : Field) : fin 3 :=
  match f with
  | FX => 0%fin
  | FY => 1%fin
  | FZ => 2%fin
  end.

Definition get_field (f : Field) (v : Vector3) : T :=
  Data v !!! field_cell f.
Definition set_field (f : Field) (x : T) (v : Vector3) : Vector3 :=
  {| Data := vinsert (field_cell f) x (Data v) |}.

Definition get_X : Vector3 -> T := get_field FX.
Definition get_Y : Vector3 -> T := get_field FY.
Definition get_Z : Vector3 -> T := get_field FZ.

(** The array view: [Data[i]] read and written. *)
Definition get_Data (i : fin 3) (v : Vector3) : T := Data v !!! i.
Definition set_Data (i : fin 3) (x : T) (v : Vector3) : Vector3 :=
  {| Data := vinsert i x (Data v) |}.

(** [Data = d;] in a constructor body: the whole array is replaced. *)
Definition assign_Data (this : Vector3) (d : vec T 3) : Vector3 :=
  {| Data := d |}.

(** Modelled from the spec: [Size()] of the base class ([Vector.h] is not
    part of the sources) returns the dimension. *)
Definition Size : nat := 3.

(** Modelled from the spec: [operator[]] of the base class reads the
    cell at a sequence index and fails out of range. *)
Definition index (v : Vector3) (i : nat) : Result T :=
  match vec_to_list (Data v) !! i with
  | Some x => ret x
  | None => raise OutOfRange
  end.

(** [Vector() : Data()]: every element value-initialised. *)
Definition Vector_default : Vector3 :=
  {| Data := vreplicate 3 value_init |}.

(** [explicit Vector(const T& scalar) : Vector()]. *)
Definition Vector_scalar (scalar : T) : Vector3 :=
  let this := Vector_default in
  assign_Data this (aggregate_init value_init 3 [scalar; scalar; scalar]).

(** [Vector(const Vector<2, T>& vector, const T& z) : Vector()]. *)
Definition Vector_extend (vector : Vector2) (z : T) : Vector3 :=
  let this := Vector_default in
  assign_Data this
    (aggregate_init value_init 3 [get_X2 vector; get_Y2 vector; z]).

(** [Vector(const T& x, const T& y, const T& z) : Vector()]. *)
Definition Vector_xyz (x y z : T) : Vector3 :=
  let this := Vector_default in
  assign_Data this (aggregate_init value_init 3 [x; y; z]).

(** [Vector(const std::initializer_list<T> args)].  The statement
    [Data = args] of its body is not an assignment [std::array] has (it
    has none from a [std::initializer_list]), so the constructor cannot
    be instantiated as written; to run it the statement has to be
    repaired.  [store] is the meaning a repair gives to the statement, a
    function of what [Data] holds and of the list.  Unlike the other
    constructors this one has no member initialiser, so what [Data] holds
    before the statement is the unknown contents of the storage [raw]. *)
Definition Vector_list (store : vec T 3 -> list T -> vec T 3)
    (raw : Vector3) (args : list T) : Result Vector3 :=
  assert_ (bool_decide (length args <= Size)) ;>
  ret (assign_Data raw (store (Data raw) args)).

(** [static Vector<3, T> Cross(const Vector<3, T>& a, const Vector<3, T>& b)]. *)
Definition Cross (a b : Vector3) : Vector3 :=
  let rx := (get_Y a * get_Z b - get_Z a * get_Y b)%E in
  let ry := (get_Z a * get_X b - get_X a * get_Z b)%E in
  let rz := (get_X a * get_Y b - get_Y a * get_X b)%E in
  Vector_xyz rx ry rz.

(** Modelled from the spec: unary [operator-] of the base class negates
    every element. *)
Definition Vector_neg (v : Vector3) : Vector3 :=
  {| Data := vmap neg (Data v) |}.

(** Modelled from the spec: [Dot(a, b)] of the base class, the sum over
    the indices of [a[i] * b[i]], accumulated from zero in index order. *)
Definition Dot (a b : Vector3) : T :=
  foldl add zero (vec_to_list (vzip_with mul (Data a) (Data b))).

(** Modelled from the spec: [LengthSquared()] of the base class is
    [Dot(v, v)]. *)
Definition LengthSquared (v : Vector3) : T := Dot v v.

End Vectors.

Arguments Vector2 T : clear implicits.
Arguments Vector3 T : clear implicits.

(** ** Comparison, length and normalisation *)

Section Normalisation.
Context {T : Type} {E : Element T} {N : Numeric T}.

(** Modelled from the spec: [operator==] of the base class compares
    element by element. *)
Definition Vector_eqb (a b : Vector3 T) : bool :=
  forallb (fun same : bool => same)
          (vec_to_list (vzip_with elem_eqb (Data a) (Data b))).

(** Modelled from the spec: [operator/] of the base class with a scalar
    divides every element by it. *)
Definition Vector_div (v : Vector3 T) (s : T) : Vector3 T :=
  {| Data := vmap (fun x => elem_div x s) (Data v) |}.

(** Modelled from the spec: [Length()] of the base class is the square
    root of [LengthSquared()]. *)
Definition Length (v : Vector3 T) : T := elem_sqrt (LengthSquared v).

(** Modelled from the spec: [Normalized()] of the base class returns
    [v / Length()], and signals a domain error when [Length() == 0]. *)
Definition Normalized (v : Vector3 T) : Result (Vector3 T) :=
  if elem_eqb (Length v) zero then raise DomainError
  else ret (Vector_div v (Length v)).

End Normalisation.

(** * Files: [Engine/Source/Private/System/File.cpp]

    - [std::string] is a [string]; [std::string::npos] is [None].
    - The file system is a finite map from paths to contents, together
      with the environment's answer to whether a path can be opened for
      reading or for writing (permissions, an existing directory).
      Streams deliver and store characters as they are (no translation
      of line ends).
    - The calls of [Logger::Log] are recorded as they are made. *)

Module File.

(** ** Strings *)

(** [s.find_last_of(c)]: the index of the last occurrence of [c]. *)
Fixpoint find_last_of (s : string) (c : Ascii.ascii) : option nat :=
  match s with
  | EmptyString => None
  | String a rest =>
      match find_last_of rest c with
      | Some i => Some (S i)
      | None => if Ascii.eqb a c then Some 0 else None
      end
  end.

(** [s.substr(pos)]: the characters from [pos] to the end; a [pos] beyond
    the length throws [std::out_of_range]. *)
Fixpoint substr (s : string) (pos : nat) : Result string :=
  match pos, s with
  | 0, _ => ret s
  | S _, EmptyString => raise OutOfRange
  | S p, String _ rest => substr rest p
  end.

(** [std::string File::GetExtension(const std::string& filepath)]. *)
Definition GetExtension (filepath : string) : Result string :=
  let dotIndex := find_last_of filepath "."%char in
  match dotIndex with
  | Some i => substr filepath (i + 1)
  | None => ret EmptyString
  end.

(** ** The world outside the program *)

(** The enumerators of [LoggerVerbosity] the sources name ([Logger.h] is
    not part of the sources). *)
Inductive LoggerVerbosity : Set := Trace | Info.

(** One call [Logger::Log(category, verbosity, format, argument)]. *)
Record LogCall : Set := mkLogCall {
  log_category : string;
  log_verbosity : LoggerVerbosity;
  log_format : string;
  log_argument : string
}.

Record World : Type := mkWorld {
  files : gmap string string;     (* path to contents *)
  readable : string -> bool;      (* the path can be opened for reading *)
  writable : string -> bool;      (* the path can be opened for writing *)
  logged : list LogCall           (* the calls of Logger::Log, oldest first *)
}.

Definition set_files (f : gmap string string -> gmap string string)
    (w : World) : World :=
  {| files := f (files w); readable := readable w; writable := writable w;
     logged := logged w |}.

Definition Logger_Log (category : string) (verbosity : LoggerVerbosity)
    (format argument : string) (w : World) : World :=
  {| files := files w; readable := readable w; writable := writable w;
     logged := logged w ++ [mkLogCall category verbosity format argument] |}.

(** ** Input streams *)

(** An open [std::ifstream]: the characters not yet read and the state
    flags. *)
Record ifstream : Set := mkIfstream {
  rdbuf : string;
  eofbit : bool;
  failbit : bool
}.

Definition good (file : ifstream) : bool :=
  negb (eofbit file) && negb (failbit file).

(** A good stream with [buf] left to read, as one just opened is. *)
Definition fresh (buf : string) : ifstream :=
  {| rdbuf := buf; eofbit := false; failbit := false |}.

(** [file.open(filepath)] on a [std::ifstream]: [None] when the stream is
    not open afterwards. *)
Definition ifstream_open (filepath : string) (w : World) : option ifstream :=
  match files w !! filepath with
  | Some content =>
      if readable w filepath
      then Some (fresh content)
      else None
  | None => None
  end.

(** The characters before the first line feed, and what follows that line
    feed when there is one. *)
Fixpoint extract_line (buf : string) : string * option string :=
  match buf with
  | EmptyString => (EmptyString, None)
  | String a rest =>
      if Ascii.eqb a "010"%char then (EmptyString, Some rest)
      else let (line, after) := extract_line rest in (String a line, after)
  end.

(** [std::getline(file, lineBuffer)]: on a stream that is not good it sets
    [failbit] and leaves the buffer; otherwise it reads up to the line
    feed, which it drops, or up to the end, where it sets [eofbit], and
    also [failbit] when it read nothing. *)
Definition getline (file : ifstream) (lineBuffer : string)
    : ifstream * string :=
  if good file then
    match extract_line (rdbuf file) with
    | (line, Some after) =>
        ({| rdbuf := after; eofbit := false; failbit := false |}, line)
    | (line, None) =>
        ({| rdbuf := EmptyString; eofbit := true;
            failbit := bool_decide (line = EmptyString) |}, line)
    end
  else
    ({| rdbuf := rdbuf file; eofbit := eofbit file; failbit := true |},
     lineBuffer).

(** ** Output streams *)

(** An open [std::ofstream]: the path it writes and its error flag. *)
Record ofstream : Set := mkOfstream {
  opath : string;
  obad : bool
}.

(** [file.open(filepath)] on a [std::ofstream], in the default mode: the
    file is created, or emptied when it exists.  [None] when the stream
    is not open afterwards. *)
Definition ofstream_open (filepath : string) (w : World)
    : option (ofstream * World) :=
  if writable w filepath
  then Some ({| opath := filepath; obad := false |},
             set_files (<[filepath := EmptyString]>) w)
  else None.

(** [file.clear()]: the error flags of the stream are reset. *)
Definition ofstream_clear (file : ofstream) : ofstream :=
  {| opath := opath file; obad := false |}.

(** [file << content]: the characters are put after those the stream has
    written, unless the stream is in error. *)
Definition ofstream_put (file : ofstream) (content : string) (w : World)
    : World :=
  if obad file then w
  else set_files (alter (fun written => written +:+ content) (opath file)) w.

(** [std::remove(path)]: the file is gone when the call succeeds
    ([ok]), and nothing changes when it fails. *)
Definition std_remove (ok : bool) (path : string) (w : World) : World :=
  if ok then set_files (delete path) w else w.

(** ** The functions of [File] *)

(** The loop of [File::Read]; [None] when [fuel] iterations do not end
    it. *)
Fixpoint Read_loop (fuel : nat) (file : ifstream)
    (lineBuffer contents : string) : option string :=
  match fuel with
  | O => None
  | S fuel' =>
      if good file then
        let (file', lineBuffer') := getline file lineBuffer in
        Read_loop fuel' file' lineBuffer'
          (contents +:+ (lineBuffer' +:+ String "010"%char EmptyString))
      else Some contents
  end.

(** [std::string File::Read(const std::string& filepath)]. *)
Definition Read (fuel : nat) (filepath : string) (w : World)
    : option (string * World) :=
  match ifstream_open filepath w with
  | Some file =>
      match Read_loop fuel file EmptyString EmptyString with
      | Some contents => Some (contents, w)
      | None => None
      end
  | None =>
      Some (EmptyString,
            Logger_Log "Engine" Info "Could not open file: {}" filepath w)
  end.

(** [bool File::Write(const std::string& filepath,
    const std::string& content, const bool overwrite)]. *)
Definition Write (filepath content : string) (overwrite : bool) (w : World)
    : bool * World :=
  match ofstream_open filepath w with
  | Some (file, w1) =>
      let file1 := if overwrite then ofstream_clear file else file in
      (true, ofstream_put file1 content w1)
  | None =>
      (false, Logger_Log "Engine" Info "Could not open file: {}" filepath w)
  end.

(** [bool File::Exists(const std::string& filepath)]. *)
Definition Exists (filepath : string) (w : World) : bool * World :=
  match ofstream_open filepath w with
  | Some (_, w1) => (true, w1)
  | None => (false, w)
  end.

(** [bool File::Delete(const std::basic_string<char>& filepath)];
    [remove_ok] tells whether [std::remove] succeeds. *)
Definition Delete (remove_ok : bool) (filepath : string) (w : World)
    : bool * World :=
  let (found, w1) := Exists filepath w in
  if negb found then (false, w1)
  else (true, std_remove remove_ok filepath w1).

End File.

(** ** Aggregate initialisation *)

Section AggregateInit.
Context {T : Type} (dflt : T).

(** Cell [i] holds initialiser [i] when the list has one, and the
    value-initialised element otherwise. *)
Lemma aggregate_init_lookup (N : nat) (args : list T) (i : fin N) :
  aggregate_init dflt N args !!! i = default dflt (args !! fin_to_nat i).
Proof.
  revert args.
  induction i as [n | n i IH]; intros [| x rest]; simpl; try reflexivity.
  - rewrite IH. reflexivity.
  - apply IH.
Qed.

Lemma aggregate_init_supplied (N : nat) (args : list T) (i : fin N) (x : T) :
  args !! fin_to_nat i = Some x -> aggregate_init dflt N args !!! i = x.
Proof. intros Hx. rewrite aggregate_init_lookup, Hx. reflexivity. Qed.

Lemma aggregate_init_missing (N : nat) (args : list T) (i : fin N) :
  length args <= fin_to_nat i -> aggregate_init dflt N args !!! i = dflt.
Proof.
  intros Hlen. rewrite aggregate_init_lookup.
  rewrite (lookup_ge_None_2 args _ Hlen). reflexivity.
Qed.

(** With no initialiser at all the array is value-initialised. *)
Lemma aggregate_init_nil (N : nat) :
  aggregate_init dflt N [] = vreplicate N dflt.
Proof. induction N as [| n IH]; simpl; [reflexivity | rewrite IH; reflexivity]. Qed.

(** The initialisers that fit are stored in order. *)
Lemma aggregate_init_to_list (N : nat) (args : list T) :
  vec_to_list (aggregate_init dflt N args)
  = take N args ++ replicate (N - length args) dflt.
Proof.
  revert args. induction N as [| n IH]; intros [| x rest]; simpl;
    try reflexivity; rewrite IH; simpl.
  - rewrite Nat.sub_0_r, take_nil. reflexivity.
  - reflexivity.
Qed.
End AggregateInit.

(** ** Storage of [Vector<3, T>] *)

Section Storage.
Context {T : Type} `{Element T}.

Lemma Vector3_eq (a b : Vector3 T) : Data a = Data b -> a = b.
Proof. destruct a, b; simpl; intros ->; reflexivity. Qed.

Lemma vec3_eta (d : vec T 3) :
  d = [# d !!! 0%fin; d !!! 1%fin; d !!! 2%fin].
Proof. inv_vec d; intros x y z. reflexivity. Qed.

(** A vector is determined by its three fields. *)
Lemma Vector3_fields (v : Vector3 T) :
  v = Vector_xyz (get_X v) (get_Y v) (get_Z v).
Proof. apply Vector3_eq. simpl. apply vec3_eta. Qed.

Lemma Data_Vector_xyz (x y z : T) : Data (Vector_xyz x y z) = [# x; y; z].
Proof. reflexivity. Qed.

Lemma get_X_xyz (x y z : T) : get_X (Vector_xyz x y z) = x.
Proof. reflexivity. Qed.
Lemma get_Y_xyz (x y z : T) : get_Y (Vector_xyz x y z) = y.
Proof. reflexivity. Qed.
Lemma get_Z_xyz (x y z : T) : get_Z (Vector_xyz x y z) = z.
Proof. reflexivity. Qed.

(** The cell of each field is its place in the declaration. *)
Lemma field_cell_index (f : Field) :
  fin_to_nat (field_cell f) = match f with FX => 0 | FY => 1 | FZ => 2 end.
Proof. destruct f; reflexivity. Qed.

Lemma field_cell_inj (f g : Field) : field_cell f = field_cell g -> f = g.
Proof. destruct f, g; simpl; intros Heq; try reflexivity; inversion Heq. Qed.

(** [operator[]] at an index in range reads the cell. *)
Lemma index_in_range (v : Vector3 T) (i : fin 3) :
  index v (fin_to_nat i) = ret (get_Data i v).
Proof.
  unfold index, get_Data.
  rewrite (proj1 (vlookup_lookup (Data v) i (Data v !!! i)) eq_refl).
  reflexivity.
Qed.

Lemma index_out_of_range (v : Vector3 T) (i : nat) :
  Size <= i -> index v i = raise OutOfRange.
Proof.
  intros Hi. unfold index.
  rewrite lookup_ge_None_2; [reflexivity |].
  rewrite length_vec_to_list. exact Hi.
Qed.

Lemma Dot_unfold (a b : Vector3 T) :
  Dot a b = (zero + get_X a * get_X b + get_Y a * get_Y b
             + get_Z a * get_Z b)%E.
Proof.
  destruct a as [da], b as [db].
  inv_vec da; intros ax ay az. inv_vec db; intros bx by_ bz.
  reflexivity.
Qed.

Lemma Cross_Data (a b : Vector3 T) :
  Data (Cross a b)
  = [# (get_Y a * get_Z b - get_Z a * get_Y b)%E;
       (get_Z a * get_X b - get_X a * get_Z b)%E;
       (get_X a * get_Y b - get_Y a * get_X b)%E ].
Proof. reflexivity. Qed.

Lemma Vector_neg_xyz (x y z : T) :
  Vector_neg (Vector_xyz x y z) = Vector_xyz (- x)%E (- y)%E (- z)%E.
Proof. reflexivity. Qed.
End Storage.

(** ** Algebra of the cross product *)

Section Algebra.
Context {T : Type} `{ExactArith T}.

Add Ring elem_ring_inst : elem_ring.

Lemma Cross_neg_swap (a b : Vector3 T) : Cross a b = Vector_neg (Cross b a).
Proof. unfold Cross. rewrite Vector_neg_xyz. f_equal; ring. Qed.

Lemma Dot_Cross_l (a b : Vector3 T) : Dot (Cross a b) a = zero.
Proof.
  rewrite Dot_unfold. unfold Cross.
  rewrite get_X_xyz, get_Y_xyz, get_Z_xyz. ring.
Qed.

Lemma Dot_Cross_r (a b : Vector3 T) : Dot (Cross a b) b = zero.
Proof.
  rewrite Dot_unfold. unfold Cross.
  rewrite get_X_xyz, get_Y_xyz, get_Z_xyz. ring.
Qed.

Lemma Cross_diag (a : Vector3 T) : Cross a a = Vector_xyz zero zero zero.
Proof. unfold Cross. f_equal; ring. Qed.

Lemma Cross_unit_xy :
  Cross (Vector_xyz one zero zero) (Vector_xyz zero one zero)
  = Vector_xyz zero zero one.
Proof.
  unfold Cross. rewrite !get_X_xyz, !get_Y_xyz, !get_Z_xyz.
  f_equal; ring.
Qed.

Lemma Vector_default_zero : Vector_default = Vector_xyz zero zero zero.
Proof.
  apply Vector3_eq. simpl. rewrite value_init_zero. reflexivity.
Qed.
End Algebra.

(** ** Length over the real numbers *)

Section RealLength.
Local Open Scope R_scope.

Implicit Types v : Vector3 R.

Lemma LengthSquared_fields v :
  LengthSquared v
  = get_X v * get_X v + get_Y v * get_Y v + get_Z v * get_Z v.
Proof.
  unfold LengthSquared. rewrite Dot_unfold.
  unfold add, mul, zero; simpl. ring.
Qed.

Lemma LengthSquared_nonneg v : 0 <= LengthSquared v.
Proof. rewrite LengthSquared_fields. nra. Qed.

Lemma LengthSquared_zero v : LengthSquared v = 0 -> v = Vector_scalar 0.
Proof.
  rewrite LengthSquared_fields. intros Hsq.
  rewrite (Vector3_fields v).
  assert (get_X v = 0) as -> by nra.
  assert (get_Y v = 0) as -> by nra.
  assert (get_Z v = 0) as -> by nra.
  reflexivity.
Qed.

Lemma Length_real v : Length v = sqrt (LengthSquared v).
Proof. reflexivity. Qed.

Lemma Length_square v : Length v * Length v = LengthSquared v.
Proof. rewrite Length_real. apply sqrt_sqrt, LengthSquared_nonneg. Qed.

Lemma Length_zero v : Length v = 0 -> v = Vector_scalar 0.
Proof.
  rewrite Length_real. intros HL. apply LengthSquared_zero.
  apply sqrt_eq_0; [apply LengthSquared_nonneg | exact HL].
Qed.

Lemma Length_zero_vector : Length (Vector_scalar 0) = 0.
Proof.
  rewrite Length_real, LengthSquared_fields.
  change (Vector_scalar 0) with (Vector_xyz 0 0 0).
  rewrite get_X_xyz, get_Y_xyz, get_Z_xyz.
  replace (0 * 0 + 0 * 0 + 0 * 0) with 0 by ring. apply sqrt_0.
Qed.

Lemma Length_nonzero v : v <> Vector_scalar 0 -> Length v <> 0.
Proof. intros Hv HL. apply Hv, Length_zero, HL. Qed.

Lemma Vector_div_fields v (s : R) :
  Vector_div v s = Vector_xyz (get_X v / s) (get_Y v / s) (get_Z v / s).
Proof.
  destruct v as [d]. inv_vec d; intros x y z. reflexivity.
Qed.

(** Dividing a vector by its own nonzero length gives length 1. *)
Lemma Length_div_Length v :
  Length v <> 0 -> Length (Vector_div v (Length v)) = 1.
Proof.
  intros HL. rewrite (Length_real (Vector_div v (Length v))).
  rewrite LengthSquared_fields, Vector_div_fields.
  rewrite get_X_xyz, get_Y_xyz, get_Z_xyz.
  replace (get_X v / Length v * (get_X v / Length v)
           + get_Y v / Length v * (get_Y v / Length v)
           + get_Z v / Length v * (get_Z v / Length v))
    with (LengthSquared v / (Length v * Length v))
    by (rewrite LengthSquared_fields; field; exact HL).
  rewrite Length_square.
  replace (LengthSquared v / LengthSquared v) with 1.
  - apply sqrt_1.
  - field. rewrite <- Length_square. nra.
Qed.

Lemma Length_eqb_zero v : elem_eqb (Length v) zero = true <-> Length v = 0.
Proof.
  change (elem_eqb (Length v) zero)
    with (if Req_dec_T (Length v) 0 then true else false).
  destruct (Req_dec_T (Length v) 0) as [HL | HL].
  - split; intros _; [exact HL | reflexivity].
  - split; [discriminate | intros H0; contradiction].
Qed.

Lemma Length_eqb_nonzero v : v <> Vector_scalar 0 -> elem_eqb (Length v) zero = false.
Proof.
  intros Hv. apply Length_nonzero in Hv.
  destruct (elem_eqb (Length v) zero) eqn:Heq; [| reflexivity].
  apply Length_eqb_zero in Heq. contradiction.
Qed.
End RealLength.

(** ** Comparison and copying *)

Section Comparison.
Context {T : Type} {E : Element T} {N : Numeric T}.

(** Where [==] holds of every element and itself, every vector compares
    equal to itself. *)
Lemma Vector_eqb_refl (v : Vector3 T) :
  (forall x : T, elem_eqb x x = true) -> Vector_eqb v v = true.
Proof.
  intros Hrefl. destruct v as [d]. inv_vec d; intros x y z.
  unfold Vector_eqb; simpl. rewrite !Hrefl. reflexivity.
Qed.

Lemma Normalized_zero (v : Vector3 T) :
  elem_eqb (Length v) zero = true -> Normalized v = raise DomainError.
Proof. intros HL. unfold Normalized. rewrite HL. reflexivity. Qed.

Lemma Normalized_nonzero (v : Vector3 T) :
  elem_eqb (Length v) zero = false ->
  Normalized v = ret (Vector_div v (Length v)).
Proof. intros HL. unfold Normalized. rewrite HL. reflexivity. Qed.

(** Copying a list into an array changes the cells the list reaches and
    no other. *)
Lemma copy_values_lookup {M : nat} (d : vec T M) (args : list T) (i : fin M) :
  copy_values d args !!! i = default (d !!! i) (args !! fin_to_nat i).
Proof.
  exact (lookup_fun_to_vec
           (fun j : fin M => default (d !!! j) (args !! fin_to_nat j)) i).
Qed.

Lemma copy_values_beyond {M : nat} (d : vec T M) (args : list T) (i : fin M) :
  length args <= fin_to_nat i -> copy_values d args !!! i = d !!! i.
Proof.
  intros Hlen. rewrite copy_values_lookup.
  rewrite (lookup_ge_None_2 args _ Hlen). reflexivity.
Qed.
End Comparison.

(** ** Wrap-around arithmetic

    Unsigned 32-bit arithmetic is exact in the sense of [ExactArith], so
    the algebra above holds for it, differences wrapping around. *)

Example Cross_uint32_wraps :
  Cross (T:=uint32)
    (Vector_xyz Zmod.zero Zmod.one Zmod.zero)
    (Vector_xyz Zmod.one Zmod.zero Zmod.zero)
  = Vector_xyz Zmod.zero Zmod.zero (Zmod.of_Z (2 ^ 32) 4294967295).
Proof. apply Vector3_eq. vm_compute. reflexivity. Qed.

Example Cross_uint32_anticommutative (a b : Vector3 uint32) :
  Cross a b = Vector_neg (Cross b a).
Proof. apply Cross_neg_swap. Qed.

(** ** The contract of [Vector<3, T>] *)

(** Case analysis on an index of a three-element array. *)
Ltac fin3_cases i :=
  let j := fresh i in
  let k := fresh i in
  let l := fresh i in
  inv_fin i; [| intros j; inv_fin j; [| intros k; inv_fin k; [| intros l; inv_fin l]]].

(** C1.  For every element type, [Cross(a, b)] is the vector with the
    components [(a.Y*b.Z - a.Z*b.Y, a.Z*b.X - a.X*b.Z, a.X*b.Y - a.Y*b.X)],
    seen through the array and through the fields; and with exact
    arithmetic [Cross((1,0,0), (0,1,0)) = (0,0,1)]. *)
Theorem Cross_components :
  (forall (T : Type) (E : Element T) (a b : Vector3 T),
      Data (Cross a b)
      = [# (get_Y a * get_Z b - get_Z a * get_Y b)%E;
           (get_Z a * get_X b - get_X a * get_Z b)%E;
           (get_X a * get_Y b - get_Y a * get_X b)%E ]
      /\ get_X (Cross a b) = (get_Y a * get_Z b - get_Z a * get_Y b)%E
      /\ get_Y (Cross a b) = (get_Z a * get_X b - get_X a * get_Z b)%E
      /\ get_Z (Cross a b) = (get_X a * get_Y b - get_Y a * get_X b)%E)
  /\ (forall (T : Type) (E : Element T), ExactArith T ->
      Cross (Vector_xyz one zero zero) (Vector_xyz zero one zero)
      = Vector_xyz zero zero one).
Proof.
  split.
  - intros T E a b. rewrite Cross_Data. unfold Cross.
    rewrite get_X_xyz, get_Y_xyz, get_Z_xyz. repeat split.
  - intros T E EA. apply Cross_unit_xy.
Qed.

Lemma Cross_components_witness :
  Cross (Vector_xyz 1 0 0)%Z (Vector_xyz 0 1 0)%Z = (Vector_xyz 0 0 1)%Z.
Proof. exact (proj2 Cross_components Z Z_Element Z_ExactArith). Defined.








(** C6.  With exact arithmetic the cross product is orthogonal to both
    inputs: [Dot(Cross(a, b), a) = 0] and [Dot(Cross(a, b), b) = 0], where
    [Dot(u, v)] is the sum of the products [u[i] * v[i]]. *)
Theorem Cross_orthogonal (T : Type) (E : Element T) (EA : ExactArith T)
    (a b : Vector3 T) :
  Dot (Cross a b) a = zero
  /\ Dot (Cross a b) b = zero
  /\ forall u v : Vector3 T,
       Dot u v = (zero + get_Data 0%fin u * get_Data 0%fin v
                  + get_Data 1%fin u * get_Data 1%fin v
                  + get_Data 2%fin u * get_Data 2%fin v)%E.
Proof.
  split; [apply Dot_Cross_l | split; [apply Dot_Cross_r |]].
  intros u v. exact (Dot_unfold u v).
Qed.

Lemma Cross_orthogonal_witness :
  Dot (Cross (Vector_xyz 1 2 3)%Z (Vector_xyz 4 5 6)%Z) (Vector_xyz 1 2 3)%Z
  = 0%Z
  /\ Dot (Cross (Vector_xyz 1 2 3)%Z (Vector_xyz 4 5 6)%Z) (Vector_xyz 4 5 6)%Z
     = 0%Z.
Proof.
  destruct (Cross_orthogonal Z Z_Element Z_ExactArith
              (Vector_xyz 1 2 3)%Z (Vector_xyz 4 5 6)%Z) as (Ha & Hb & _).
  split; [exact Ha | exact Hb].
Defined.

(** C7.  The fields [X], [Y], [Z] are the cells 0, 1, 2 of [Data]: a read
    through a field is the read of its index, a write through a field is
    the write of its index, what is written through one view is read
    back through the other, and distinct fields are distinct cells.  This
    holds for every vector value, so after every operation.  For
    [(5, 6, 7)]: [v[0] = v.X = 5], [v[1] = v.Y = 6], [v[2] = v.Z = 7]. *)
Theorem fields_alias_Data :
  (forall (T : Type) (E : Element T) (v : Vector3 T) (f : Field) (x : T),
      fin_to_nat (field_cell f) = match f with FX => 0 | FY => 1 | FZ => 2 end
      /\ get_field f v = get_Data (field_cell f) v
      /\ index v (fin_to_nat (field_cell f)) = ret (get_field f v)
      /\ set_field f x v = set_Data (field_cell f) x v
      /\ get_Data (field_cell f) (set_field f x v) = x
      /\ get_field f (set_Data (field_cell f) x v) = x
      /\ (forall g : Field, g <> f ->
            get_field g (set_field f x v) = get_field g v))
  /\ (let v := (Vector_xyz 5 6 7)%Z in
      index v 0 = ret (get_X v) /\ get_X v = 5%Z
      /\ index v 1 = ret (get_Y v) /\ get_Y v = 6%Z
      /\ index v 2 = ret (get_Z v) /\ get_Z v = 7%Z).
Proof.
  split; [| repeat split].
  intros T E v f x. repeat split.
  - apply field_cell_index.
  - apply (index_in_range v (field_cell f)).
  - apply vlookup_insert.
  - apply vlookup_insert.
  - intros g Hg. unfold get_field, set_field; simpl.
    apply vlookup_insert_ne. intros Heq. apply Hg. symmetry.
    apply field_cell_inj, Heq.
Qed.

(** C8.  The extension constructor puts the components of the 2D vector
    first and the scalar last: [Vector(v, z) = (v.X, v.Y, z)]; extending
    [(1, 2)] with [3] gives [(1, 2, 3)]. *)
Theorem Vector_extend_components :
  (forall (T : Type) (E : Element T) (v : Vector2 T) (z : T),
      Data (Vector_extend v z) = [# get_X2 v; get_Y2 v; z]
      /\ get_X (Vector_extend v z) = get_X2 v
      /\ get_Y (Vector_extend v z) = get_Y2 v
      /\ get_Z (Vector_extend v z) = z
      /\ Vector_extend v z = Vector_xyz (get_X2 v) (get_Y2 v) z)
  /\ Vector_extend (Vector2_xy 1 2)%Z 3%Z = (Vector_xyz 1 2 3)%Z.
Proof. split; [intros T E v z; repeat split | reflexivity]. Qed.

(** C9.  [Vector(s)] sets all 3 elements to [s]; [Vector()]
    value-initialises all 3 elements, which is zero for a numeric
    element type. *)
Theorem Vector_scalar_default_elements :
  (forall (T : Type) (E : Element T) (s : T),
      Data (Vector_scalar s) = [# s; s; s]
      /\ forall i : fin 3, get_Data i (Vector_scalar s) = s)
  /\ (forall (T : Type) (E : Element T),
      Data (Vector_default (T:=T)) = [# value_init; value_init; value_init]
      /\ forall i : fin 3, get_Data i (Vector_default (T:=T)) = value_init)
  /\ (forall (T : Type) (E : Element T), ExactArith T ->
      forall i : fin 3, get_Data i (Vector_default (T:=T)) = zero)
  /\ Vector_default = (Vector_xyz 0 0 0)%Z.
Proof.
  split; [| split; [| split]].
  - intros T E s. split; [reflexivity |].
    intros i. fin3_cases i; reflexivity.
  - intros T E. split; [reflexivity |].
    intros i. apply vlookup_replicate.
  - intros T E EA i. rewrite Vector_default_zero.
    fin3_cases i; reflexivity.
  - reflexivity.
Qed.

Lemma Vector_scalar_default_elements_witness :
  get_Data 0%fin (Vector_default (T:=Z)) = 0%Z
  /\ get_Data 1%fin (Vector_default (T:=Z)) = 0%Z
  /\ get_Data 2%fin (Vector_default (T:=Z)) = 0%Z.
Proof.
  pose proof (proj1 (proj2 (proj2 Vector_scalar_default_elements))
                Z Z_Element Z_ExactArith) as Hz.
  repeat split; apply Hz.
Defined.

(** C10.  With exact arithmetic the cross product of a vector with
    itself is the zero vector. *)
Theorem Cross_self_zero (T : Type) (E : Element T) (EA : ExactArith T)
    (a : Vector3 T) :
  Cross a a = Vector_xyz zero zero zero
  /\ forall i : fin 3, get_Data i (Cross a a) = zero.
Proof.
  rewrite Cross_diag. split; [reflexivity |].
  intros i. fin3_cases i; reflexivity.
Qed.

Lemma Cross_self_zero_witness :
  Cross (Vector_xyz 1 2 3)%Z (Vector_xyz 1 2 3)%Z = (Vector_xyz 0 0 0)%Z.
Proof.
  exact (proj1 (Cross_self_zero Z Z_Element Z_ExactArith (Vector_xyz 1 2 3)%Z)).
Defined.

(** * Further properties of [Vector<3, T>] *)

(** ** Construction and fields *)

Section Construction.
Context {T : Type} `{Element T}.

Lemma get_field_xyz (f : Field) (x y z : T) :
  get_field f (Vector_xyz x y z)
  = match f with FX => x | FY => y | FZ => z end.
Proof. destruct f; reflexivity. Qed.

End Construction.

(** ** Bilinearity and the classical identities of the cross product *)

Section CrossIdentities.
Context {T : Type} `{ExactArith T}.

Add Ring elem_ring_identities : elem_ring.

(** Unfolds the cross products of a goal down to the fields of the
    vectors it mentions. *)
Ltac cross_fields :=
  unfold Cross; rewrite ?Dot_unfold;
  rewrite ?get_X_xyz, ?get_Y_xyz, ?get_Z_xyz, ?get_field_xyz.

Lemma Cross_add_l (x y z x' y' z' : T) (b : Vector3 T) (f : Field) :
  get_field f (Cross (Vector_xyz (x + x') (y + y') (z + z'))%E b)
  = (get_field f (Cross (Vector_xyz x y z) b)
     + get_field f (Cross (Vector_xyz x' y' z') b))%E.
Proof. cross_fields. destruct f; ring. Qed.

Lemma Cross_add_r (a : Vector3 T) (x y z x' y' z' : T) (f : Field) :
  get_field f (Cross a (Vector_xyz (x + x') (y + y') (z + z'))%E)
  = (get_field f (Cross a (Vector_xyz x y z))
     + get_field f (Cross a (Vector_xyz x' y' z')))%E.
Proof. cross_fields. destruct f; ring. Qed.

Lemma Cross_scale_l (k x y z : T) (b : Vector3 T) (f : Field) :
  get_field f (Cross (Vector_xyz (k * x) (k * y) (k * z))%E b)
  = (k * get_field f (Cross (Vector_xyz x y z) b))%E.
Proof. cross_fields. destruct f; ring. Qed.

Lemma Cross_scale_r (a : Vector3 T) (k x y z : T) (f : Field) :
  get_field f (Cross a (Vector_xyz (k * x) (k * y) (k * z))%E)
  = (k * get_field f (Cross a (Vector_xyz x y z)))%E.
Proof. cross_fields. destruct f; ring. Qed.

Lemma Cross_parallel (a : Vector3 T) (k : T) :
  Cross a (Vector_xyz (k * get_X a) (k * get_Y a) (k * get_Z a))%E
  = Vector_xyz zero zero zero.
Proof. cross_fields. f_equal; ring. Qed.

Lemma Cross_zero_r (a : Vector3 T) : Cross a Vector_default = Vector_default.
Proof.
  rewrite Vector_default_zero. cross_fields. f_equal; ring.
Qed.

Lemma Cross_zero_l (a : Vector3 T) : Cross Vector_default a = Vector_default.
Proof.
  rewrite Vector_default_zero. cross_fields. f_equal; ring.
Qed.

Lemma Cross_Jacobi (a b c : Vector3 T) (f : Field) :
  (get_field f (Cross a (Cross b c))
   + get_field f (Cross b (Cross c a))
   + get_field f (Cross c (Cross a b)))%E = zero.
Proof. cross_fields. destruct f; ring. Qed.

Lemma Cross_triple_expansion (a b c : Vector3 T) (f : Field) :
  get_field f (Cross a (Cross b c))
  = (get_field f b * Dot a c - get_field f c * Dot a b)%E.
Proof. cross_fields. destruct f; unfold get_X, get_Y, get_Z; ring. Qed.

Lemma Dot_Cross_cyclic (a b c : Vector3 T) :
  Dot (Cross a b) c = Dot a (Cross b c).
Proof. cross_fields. ring. Qed.

Lemma Cross_Lagrange (a b : Vector3 T) :
  LengthSquared (Cross a b)
  = (LengthSquared a * LengthSquared b - Dot a b * Dot a b)%E.
Proof. unfold LengthSquared. cross_fields. ring. Qed.

Lemma Cross_planar (u v : Vector2 T) :
  Cross (Vector_extend u zero) (Vector_extend v zero)
  = Vector_xyz zero zero (get_X2 u * get_Y2 v - get_Y2 u * get_X2 v)%E.
Proof.
  change (Vector_extend u zero) with (Vector_xyz (get_X2 u) (get_Y2 u) zero).
  change (Vector_extend v zero) with (Vector_xyz (get_X2 v) (get_Y2 v) zero).
  cross_fields. f_equal; ring.
Qed.
End CrossIdentities.

(** * Properties of [File] *)

(** ** Strings and lines *)

Section Strings.
Implicit Types s buf line after ext stem : string.

(** The line feed, as a string. *)
Local Abbreviation LF := (String "010"%char EmptyString).

Lemma string_app_cons (a : Ascii.ascii) s1 s2 :
  String a s1 +:+ s2 = String a (s1 +:+ s2).
Proof. reflexivity. Qed.

Lemma string_app_assoc s1 s2 s3 : (s1 +:+ s2) +:+ s3 = s1 +:+ (s2 +:+ s3).
Proof.
  induction s1 as [| a s1 IH]; [reflexivity |].
  rewrite !string_app_cons, IH. reflexivity.
Qed.

Lemma string_app_nil_r s : s +:+ "" = s.
Proof.
  induction s as [| a s IH]; [reflexivity |].
  rewrite string_app_cons, IH. reflexivity.
Qed.

Lemma string_length_app s1 s2 :
  String.length (s1 +:+ s2) = String.length s1 + String.length s2.
Proof.
  induction s1 as [| a s1 IH]; [reflexivity |].
  rewrite string_app_cons. simpl. rewrite IH. reflexivity.
Qed.

Lemma list_of_string_app s1 s2 :
  String.list_ascii_of_string (s1 +:+ s2)
  = String.list_ascii_of_string s1 ++ String.list_ascii_of_string s2.
Proof.
  induction s1 as [| a s1 IH]; [reflexivity |].
  rewrite string_app_cons. simpl. rewrite IH. reflexivity.
Qed.

(** [extract_line] cuts the buffer at its first line feed. *)
Lemma extract_line_Some buf line after :
  File.extract_line buf = (line, Some after) ->
  buf = line +:+ String "010"%char after
  /\ ~ In "010"%char (String.list_ascii_of_string line).
Proof.
  revert line. induction buf as [| a buf IH]; intros line; simpl.
  - discriminate.
  - destruct (Ascii.eqb_spec a "010"%char) as [-> | Hne].
    + intros [= <- <-]. split; [reflexivity | intros []].
    + destruct (File.extract_line buf) as [line' after'].
      intros [= <- ->]. destruct (IH line' eq_refl) as [-> Hnot].
      split; [reflexivity |].
      simpl. intros [Heq | Hin]; [apply Hne, Heq | apply Hnot, Hin].
Qed.

Lemma extract_line_None buf line :
  File.extract_line buf = (line, None) ->
  buf = line /\ ~ In "010"%char (String.list_ascii_of_string buf).
Proof.
  revert line. induction buf as [| a buf IH]; intros line; simpl.
  - intros [= <-]. split; [reflexivity | intros []].
  - destruct (Ascii.eqb_spec a "010"%char) as [-> | Hne]; [discriminate |].
    destruct (File.extract_line buf) as [line' after'].
    intros [= <- ->]. destruct (IH line' eq_refl) as [<- Hnot].
    split; [reflexivity |].
    intros [Heq | Hin]; [apply Hne, Heq | apply Hnot, Hin].
Qed.

(** The loop of [File::Read] ends, with everything that was in the
    stream and one more line feed. *)
Lemma Read_loop_fresh (fuel : nat) buf lineBuffer contents :
  String.length buf + 2 <= fuel ->
  File.Read_loop fuel (File.fresh buf) lineBuffer contents
  = Some (contents +:+ buf +:+ LF).
Proof.
  revert buf lineBuffer contents.
  induction fuel as [| fuel IH]; intros buf lineBuffer contents Hfuel; [lia |].
  simpl. unfold File.getline; simpl.
  destruct (File.extract_line buf) as [line [after |]] eqn:Hline.
  - apply extract_line_Some in Hline as [-> _].
    rewrite string_length_app in Hfuel; simpl in Hfuel.
    change (File.Read_loop fuel (File.fresh after) line (contents +:+ line +:+ LF)
            = Some (contents +:+ (line +:+ String "010"%char after) +:+ LF)).
    rewrite IH by lia. f_equal.
    rewrite !string_app_assoc. reflexivity.
  - apply extract_line_None in Hline as [<- _].
    destruct fuel as [| fuel]; [lia |]. reflexivity.
Qed.

(** Whatever the fuel, the loop returns nothing else. *)
Lemma Read_loop_sound (fuel : nat) buf lineBuffer contents result :
  File.Read_loop fuel (File.fresh buf) lineBuffer contents = Some result ->
  result = contents +:+ buf +:+ LF.
Proof.
  revert buf lineBuffer contents.
  induction fuel as [| fuel IH]; intros buf lineBuffer contents; [discriminate |].
  simpl. unfold File.getline; simpl.
  destruct (File.extract_line buf) as [line [after |]] eqn:Hline.
  - apply extract_line_Some in Hline as [-> _].
    intros Hloop. apply IH in Hloop. rewrite Hloop.
    rewrite !string_app_assoc. reflexivity.
  - apply extract_line_None in Hline as [<- _].
    destruct fuel as [| fuel]; [discriminate |].
    simpl. intros [= <-]. reflexivity.
Qed.
End Strings.

(** ** The last occurrence of a character *)

Section LastOccurrence.
Implicit Types s ext stem : string.
Variable c : Ascii.ascii.

Lemma find_last_of_None s :
  File.find_last_of s c = None <-> ~ In c (String.list_ascii_of_string s).
Proof.
  induction s as [| a s IH]; simpl.
  - split; [intros _ [] | reflexivity].
  - destruct (File.find_last_of s c) as [i |].
    + split; [discriminate |].
      intros Hnot.
      assert (~ In c (String.list_ascii_of_string s)) as Hs
        by (intros Hin; apply Hnot; right; exact Hin).
      apply IH in Hs. discriminate.
    + destruct (Ascii.eqb_spec a c) as [-> | Hne].
      * split; [discriminate | intros Hnot; exfalso; apply Hnot; left; reflexivity].
      * split; [| reflexivity].
        intros _ [Heq | Hin]; [apply Hne, Heq | apply (proj1 IH eq_refl), Hin].
Qed.

(** After the last occurrence the character does not occur again. *)
Lemma find_last_of_Some s (i : nat) :
  File.find_last_of s c = Some i ->
  exists stem ext,
    s = stem +:+ String c ext
    /\ String.length stem = i
    /\ ~ In c (String.list_ascii_of_string ext).
Proof.
  revert i. induction s as [| a s IH]; intros i; simpl; [discriminate |].
  destruct (File.find_last_of s c) as [j |] eqn:Hlast.
  - intros [= <-]. destruct (IH j eq_refl) as (stem & ext & -> & <- & Hnot).
    exists (String a stem), ext. repeat split; assumption.
  - destruct (Ascii.eqb_spec a c) as [-> | Hne]; [| discriminate].
    intros [= <-]. exists EmptyString, s. repeat split.
    apply find_last_of_None, Hlast.
Qed.

Lemma find_last_of_app stem ext :
  ~ In c (String.list_ascii_of_string ext) ->
  File.find_last_of (stem +:+ String c ext) c = Some (String.length stem).
Proof.
  intros Hnot. apply find_last_of_None in Hnot.
  induction stem as [| a stem IH].
  - change (File.find_last_of (String c ext) c = Some 0). simpl.
    rewrite Hnot, Ascii.eqb_refl. reflexivity.
  - rewrite string_app_cons. simpl. rewrite IH. reflexivity.
Qed.

Lemma substr_app stem s :
  File.substr (stem +:+ s) (String.length stem) = ret s.
Proof.
  induction stem as [| a stem IH]; [destruct s; reflexivity |].
  rewrite string_app_cons. simpl. exact IH.
Qed.

Lemma substr_after stem ext :
  File.substr (stem +:+ String c ext) (String.length stem + 1) = ret ext.
Proof.
  replace (stem +:+ String c ext) with ((stem +:+ String c "") +:+ ext)
    by (rewrite string_app_assoc; reflexivity).
  replace (String.length stem + 1)
    with (String.length (stem +:+ String c ""))
    by (rewrite string_length_app; reflexivity).
  apply substr_app.
Qed.
End LastOccurrence.

(** ** Worlds *)

Section Worlds.
Implicit Types (w : File.World) (filepath content : string).

Lemma ifstream_open_Some filepath content w :
  File.files w !! filepath = Some content ->
  File.readable w filepath = true ->
  File.ifstream_open filepath w = Some (File.fresh content).
Proof. intros Hfile Hread. unfold File.ifstream_open. rewrite Hfile, Hread. reflexivity. Qed.

Lemma ifstream_open_None filepath w :
  File.files w !! filepath = None \/ File.readable w filepath = false ->
  File.ifstream_open filepath w = None.
Proof.
  intros [Hfile | Hread]; unfold File.ifstream_open.
  - rewrite Hfile. reflexivity.
  - rewrite Hread. destruct (File.files w !! filepath); reflexivity.
Qed.

Lemma Write_open filepath content (overwrite : bool) w :
  File.writable w filepath = true ->
  File.Write filepath content overwrite w
  = (true, File.set_files (<[filepath := content]>) w).
Proof.
  intros Hw. unfold File.Write, File.ofstream_open. rewrite Hw.
  destruct overwrite; unfold File.ofstream_put, File.set_files; simpl;
    rewrite alter_insert_eq; reflexivity.
Qed.

Lemma Write_closed filepath content (overwrite : bool) w :
  File.writable w filepath = false ->
  File.Write filepath content overwrite w
  = (false,
     File.Logger_Log "Engine" File.Info "Could not open file: {}" filepath w).
Proof. intros Hw. unfold File.Write, File.ofstream_open. rewrite Hw. reflexivity. Qed.

Lemma Exists_open filepath w :
  File.writable w filepath = true ->
  File.Exists filepath w = (true, File.set_files (<[filepath := ""]>) w).
Proof. intros Hw. unfold File.Exists, File.ofstream_open. rewrite Hw. reflexivity. Qed.

Lemma Exists_closed filepath w :
  File.writable w filepath = false -> File.Exists filepath w = (false, w).
Proof. intros Hw. unfold File.Exists, File.ofstream_open. rewrite Hw. reflexivity. Qed.

Lemma Read_open (fuel : nat) filepath content w :
  File.files w !! filepath = Some content ->
  File.readable w filepath = true ->
  String.length content + 2 <= fuel ->
  File.Read fuel filepath w
  = Some (content +:+ String "010"%char EmptyString, w).
Proof.
  intros Hfile Hread Hfuel. unfold File.Read.
  rewrite (ifstream_open_Some _ _ _ Hfile Hread).
  rewrite Read_loop_fresh by exact Hfuel. reflexivity.
Qed.
End Worlds.

(** * Further contract of [Vector<3, T>] *)

(** X1.  The component constructor and the fields are inverse to each
    other: the fields of [Vector(x, y, z)] are [x], [y], [z], every
    vector is the one constructed from its own fields, and two
    constructed vectors are equal only when their components are. *)
Theorem Vector_xyz_fields_inverse (T : Type) (E : Element T)
    (v : Vector3 T) (x y z x' y' z' : T) :
  get_X (Vector_xyz x y z) = x
  /\ get_Y (Vector_xyz x y z) = y
  /\ get_Z (Vector_xyz x y z) = z
  /\ Vector_xyz (get_X v) (get_Y v) (get_Z v) = v
  /\ (Vector_xyz x y z = Vector_xyz x' y' z' <-> x = x' /\ y = y' /\ z = z').
Proof.
  split; [reflexivity |]. split; [reflexivity |]. split; [reflexivity |].
  split; [symmetry; apply Vector3_fields |].
  split.
  - intros Heq. split; [| split].
    + exact (f_equal get_X Heq).
    + exact (f_equal get_Y Heq).
    + exact (f_equal get_Z Heq).
  - intros (-> & -> & ->). reflexivity.
Qed.

(** X3.  With exact arithmetic the cross product is additive in each
    argument, field by field: crossing the sum of two component triples
    gives the sum of the two cross products. *)
Theorem Cross_additive (T : Type) (E : Element T) (EA : ExactArith T)
    (v : Vector3 T) (x y z x' y' z' : T) (f : Field) :
  get_field f (Cross (Vector_xyz (x + x') (y + y') (z + z'))%E v)
  = (get_field f (Cross (Vector_xyz x y z) v)
     + get_field f (Cross (Vector_xyz x' y' z') v))%E
  /\ get_field f (Cross v (Vector_xyz (x + x') (y + y') (z + z'))%E)
     = (get_field f (Cross v (Vector_xyz x y z))
        + get_field f (Cross v (Vector_xyz x' y' z')))%E.
Proof. split; [apply Cross_add_l | apply Cross_add_r]. Qed.

Lemma Cross_additive_witness :
  get_field FZ (Cross (Vector_xyz (1 + 4) (2 + 5) (3 + 6))%Z (Vector_xyz 7 8 9)%Z)
  = (get_field FZ (Cross (Vector_xyz 1 2 3)%Z (Vector_xyz 7 8 9)%Z)
     + get_field FZ (Cross (Vector_xyz 4 5 6)%Z (Vector_xyz 7 8 9)%Z))%Z.
Proof.
  exact (proj1 (Cross_additive Z Z_Element Z_ExactArith (Vector_xyz 7 8 9)%Z
                  1 2 3 4 5 6 FZ)%Z).
Defined.

(** X4.  With exact arithmetic a scalar factor of either argument can be
    taken out of the cross product, field by field. *)
Theorem Cross_homogeneous (T : Type) (E : Element T) (EA : ExactArith T)
    (v : Vector3 T) (k x y z : T) (f : Field) :
  get_field f (Cross (Vector_xyz (k * x) (k * y) (k * z))%E v)
  = (k * get_field f (Cross (Vector_xyz x y z) v))%E
  /\ get_field f (Cross v (Vector_xyz (k * x) (k * y) (k * z))%E)
     = (k * get_field f (Cross v (Vector_xyz x y z)))%E.
Proof. split; [apply Cross_scale_l | apply Cross_scale_r]. Qed.

Lemma Cross_homogeneous_witness :
  get_field FX (Cross (Vector_xyz (2 * 1) (2 * 2) (2 * 3))%Z (Vector_xyz 7 8 9)%Z)
  = (2 * get_field FX (Cross (Vector_xyz 1 2 3)%Z (Vector_xyz 7 8 9)%Z))%Z.
Proof.
  exact (proj1 (Cross_homogeneous Z Z_Element Z_ExactArith (Vector_xyz 7 8 9)%Z
                  2 1 2 3 FX)%Z).
Defined.

(** X5.  With exact arithmetic the cross product of a vector with any
    scalar multiple of itself is the zero vector. *)
Theorem Cross_of_multiple (T : Type) (E : Element T) (EA : ExactArith T)
    (a : Vector3 T) (k : T) :
  Cross a (Vector_xyz (k * get_X a) (k * get_Y a) (k * get_Z a))%E
  = Vector_xyz zero zero zero.
Proof. apply Cross_parallel. Qed.

Lemma Cross_of_multiple_witness :
  Cross (Vector_xyz 1 2 3)%Z
        (Vector_xyz (5 * get_X (Vector_xyz 1 2 3)) (5 * get_Y (Vector_xyz 1 2 3))
                    (5 * get_Z (Vector_xyz 1 2 3)))%Z
  = (Vector_xyz 0 0 0)%Z.
Proof.
  exact (Cross_of_multiple Z Z_Element Z_ExactArith (Vector_xyz 1 2 3)%Z 5%Z).
Defined.

(** X7.  With exact arithmetic the cross product with the
    default-constructed vector, on either side, is the
    default-constructed vector. *)
Theorem Cross_with_default (T : Type) (E : Element T) (EA : ExactArith T)
    (a : Vector3 T) :
  Cross a Vector_default = Vector_default
  /\ Cross Vector_default a = Vector_default.
Proof. split; [apply Cross_zero_r | apply Cross_zero_l]. Qed.

Lemma Cross_with_default_witness :
  Cross (Vector_xyz 1 2 3)%Z Vector_default = Vector_default
  /\ Cross Vector_default (Vector_xyz 1 2 3)%Z = Vector_default.
Proof.
  exact (Cross_with_default Z Z_Element Z_ExactArith (Vector_xyz 1 2 3)%Z).
Defined.

(** X8.  With exact arithmetic the cross product satisfies the Jacobi
    identity: in every field,
    [a x (b x c) + b x (c x a) + c x (a x b)] is zero. *)
Theorem Cross_Jacobi_identity (T : Type) (E : Element T) (EA : ExactArith T)
    (a b c : Vector3 T) (f : Field) :
  (get_field f (Cross a (Cross b c))
   + get_field f (Cross b (Cross c a))
   + get_field f (Cross c (Cross a b)))%E = zero.
Proof. apply Cross_Jacobi. Qed.

Lemma Cross_Jacobi_identity_witness :
  (get_field FY (Cross (Vector_xyz 1 2 3) (Cross (Vector_xyz 4 5 6) (Vector_xyz 7 8 10)))
   + get_field FY (Cross (Vector_xyz 4 5 6) (Cross (Vector_xyz 7 8 10) (Vector_xyz 1 2 3)))
   + get_field FY (Cross (Vector_xyz 7 8 10) (Cross (Vector_xyz 1 2 3) (Vector_xyz 4 5 6))))%Z
  = 0%Z.
Proof.
  exact (Cross_Jacobi_identity Z Z_Element Z_ExactArith
           (Vector_xyz 1 2 3)%Z (Vector_xyz 4 5 6)%Z (Vector_xyz 7 8 10)%Z FY).
Defined.

(** X9.  With exact arithmetic the cross product of two 2D vectors
    extended with a zero third component lies along [Z]: its [X] and [Y]
    are zero and its [Z] is [u.X * v.Y - u.Y * v.X]. *)
Theorem Cross_of_extended (T : Type) (E : Element T) (EA : ExactArith T)
    (u v : Vector2 T) :
  Cross (Vector_extend u zero) (Vector_extend v zero)
  = Vector_xyz zero zero (get_X2 u * get_Y2 v - get_Y2 u * get_X2 v)%E.
Proof. apply Cross_planar. Qed.

Lemma Cross_of_extended_witness :
  Cross (Vector_extend (Vector2_xy 1 2)%Z 0%Z) (Vector_extend (Vector2_xy 3 4)%Z 0%Z)
  = Vector_xyz 0%Z 0%Z
      (get_X2 (Vector2_xy 1 2) * get_Y2 (Vector2_xy 3 4)
       - get_Y2 (Vector2_xy 1 2) * get_X2 (Vector2_xy 3 4))%Z.
Proof.
  exact (Cross_of_extended Z Z_Element Z_ExactArith
           (Vector2_xy 1 2)%Z (Vector2_xy 3 4)%Z).
Defined.

(** X10.  With exact arithmetic, and [Dot] the sum of the products of
    corresponding elements, the scalar triple product is unchanged when
    the cross moves to the other pair: [(a x b) . c = a . (b x c)]. *)
Theorem Cross_Dot_exchange (T : Type) (E : Element T) (EA : ExactArith T)
    (a b c : Vector3 T) :
  Dot (Cross a b) c = Dot a (Cross b c).
Proof. apply Dot_Cross_cyclic. Qed.

Lemma Cross_Dot_exchange_witness :
  Dot (Cross (Vector_xyz 1 2 3)%Z (Vector_xyz 4 5 6)%Z) (Vector_xyz 7 8 10)%Z
  = Dot (Vector_xyz 1 2 3)%Z (Cross (Vector_xyz 4 5 6)%Z (Vector_xyz 7 8 10)%Z).
Proof.
  exact (Cross_Dot_exchange Z Z_Element Z_ExactArith
           (Vector_xyz 1 2 3)%Z (Vector_xyz 4 5 6)%Z (Vector_xyz 7 8 10)%Z).
Defined.

(** X11.  With exact arithmetic, and [Dot] the sum of the products of
    corresponding elements, the cross product satisfies Lagrange's
    identity: [|a x b|^2 = |a|^2 |b|^2 - (a . b)^2]. *)
Theorem Cross_Lagrange_identity (T : Type) (E : Element T) (EA : ExactArith T)
    (a b : Vector3 T) :
  Dot (Cross a b) (Cross a b)
  = (Dot a a * Dot b b - Dot a b * Dot a b)%E.
Proof. apply (Cross_Lagrange a b). Qed.

Lemma Cross_Lagrange_identity_witness :
  Dot (Cross (Vector_xyz 1 2 3)%Z (Vector_xyz 4 5 6)%Z)
      (Cross (Vector_xyz 1 2 3)%Z (Vector_xyz 4 5 6)%Z)
  = (Dot (Vector_xyz 1 2 3) (Vector_xyz 1 2 3)
     * Dot (Vector_xyz 4 5 6) (Vector_xyz 4 5 6)
     - Dot (Vector_xyz 1 2 3) (Vector_xyz 4 5 6)
       * Dot (Vector_xyz 1 2 3) (Vector_xyz 4 5 6))%Z.
Proof.
  exact (Cross_Lagrange_identity Z Z_Element Z_ExactArith
           (Vector_xyz 1 2 3)%Z (Vector_xyz 4 5 6)%Z).
Defined.

(** * The contract of [File] *)

(** X12.  [GetExtension] never throws: it returns the empty string when
    the path has no ['.'], and otherwise the text after the last ['.'],
    which itself has no ['.']. *)
Theorem GetExtension_after_last_dot (filepath : string) :
  (~ In "."%char (String.list_ascii_of_string filepath)
   /\ File.GetExtension filepath = ret "")
  \/ (exists stem ext : string,
        filepath = stem +:+ String "."%char ext
        /\ ~ In "."%char (String.list_ascii_of_string ext)
        /\ File.GetExtension filepath = ret ext).
Proof.
  unfold File.GetExtension.
  destruct (File.find_last_of filepath "."%char) as [i |] eqn:Hlast.
  - right. apply find_last_of_Some in Hlast.
    destruct Hlast as (stem & ext & -> & <- & Hnot).
    exists stem, ext. repeat split; [exact Hnot |].
    apply substr_after.
  - left. split; [apply find_last_of_None, Hlast | reflexivity].
Qed.

(** X13.  [GetExtension] recovers an extension that has no ['.'] from any
    path made of a stem, a ['.'] and that extension, whatever the stem
    holds; and the extension of a path with no ['.'] is empty. *)
Theorem GetExtension_round_trip (stem ext : string) :
  ~ In "."%char (String.list_ascii_of_string ext) ->
  File.GetExtension (stem +:+ String "."%char ext) = ret ext
  /\ File.GetExtension ext = ret "".
Proof.
  intros Hnot. unfold File.GetExtension. split.
  - rewrite (find_last_of_app "."%char stem ext Hnot). apply substr_after.
  - rewrite (proj2 (find_last_of_None "."%char ext) Hnot). reflexivity.
Qed.

Lemma GetExtension_round_trip_witness :
  File.GetExtension ("dir.d/archive.tar" +:+ String "."%char "gz") = ret "gz"
  /\ File.GetExtension "gz" = ret "".
Proof.
  apply (GetExtension_round_trip "dir.d/archive.tar" "gz").
  simpl. intros [Heq | [Heq | []]]; discriminate Heq.
Defined.

(** X14.  [Read] of a file that can be opened returns all of its
    contents followed by one more line feed, and changes nothing: with
    enough fuel for the loop it returns, and no fuel makes it return
    anything else. *)
Theorem Read_appends_line_feed (fuel : nat) (filepath content : string)
    (w : File.World) :
  File.files w !! filepath = Some content ->
  File.readable w filepath = true ->
  (String.length content + 2 <= fuel ->
     File.Read fuel filepath w
     = Some (content +:+ String "010"%char EmptyString, w))
  /\ (forall (result : string) (w' : File.World),
        File.Read fuel filepath w = Some (result, w') ->
        result = content +:+ String "010"%char EmptyString /\ w' = w).
Proof.
  intros Hfile Hread. split.
  - apply Read_open; assumption.
  - intros result w'. unfold File.Read.
    rewrite (ifstream_open_Some _ _ _ Hfile Hread).
    destruct (File.Read_loop fuel (File.fresh content) "" "") as [r |] eqn:Hloop;
      [| discriminate].
    intros [= <- <-]. apply Read_loop_sound in Hloop.
    split; [exact Hloop | reflexivity].
Qed.

Lemma Read_appends_line_feed_witness :
  File.Read 7 "notes.txt"
    (File.mkWorld {[ "notes.txt" := "hello" ]} (fun _ => true) (fun _ => true) [])
  = Some ("hello" +:+ String "010"%char EmptyString,
          File.mkWorld {[ "notes.txt" := "hello" ]} (fun _ => true) (fun _ => true) []).
Proof.
  apply (Read_appends_line_feed 7 "notes.txt" "hello"
           (File.mkWorld {[ "notes.txt" := "hello" ]}
              (fun _ => true) (fun _ => true) [])).
  - vm_compute. reflexivity.
  - reflexivity.
  - simpl. lia.
Defined.

(** X15.  [Read] of a path that cannot be opened returns the empty
    string, whatever the fuel, records one call of [Logger::Log] and
    changes no file; and [Read] never returns the empty string for a
    file it could open, so an empty result tells the two apart. *)
Theorem Read_unopened_empty (fuel : nat) (filepath : string) (w : File.World) :
  (File.files w !! filepath = None \/ File.readable w filepath = false ->
     exists w' : File.World,
       File.Read fuel filepath w = Some ("", w')
       /\ File.files w' = File.files w
       /\ File.logged w'
          = File.logged w
            ++ [File.mkLogCall "Engine" File.Info
                  "Could not open file: {}" filepath])
  /\ (forall (content result : string) (w' : File.World),
        File.files w !! filepath = Some content ->
        File.readable w filepath = true ->
        File.Read fuel filepath w = Some (result, w') ->
        result <> "").
Proof.
  split.
  - intros Hclosed. unfold File.Read.
    rewrite (ifstream_open_None _ _ Hclosed).
    eexists. repeat split.
  - intros content result w' Hfile Hread. unfold File.Read.
    rewrite (ifstream_open_Some _ _ _ Hfile Hread).
    destruct (File.Read_loop fuel (File.fresh content) "" "") as [r |] eqn:Hloop;
      [| discriminate].
    intros [= <- <-]. apply Read_loop_sound in Hloop. rewrite Hloop.
    destruct content; discriminate.
Qed.

Lemma Read_unopened_empty_witness :
  exists w' : File.World,
    File.Read 0 "missing.txt"
      (File.mkWorld ∅ (fun _ => true) (fun _ => true) []) = Some ("", w')
    /\ File.files w' = ∅
    /\ File.logged w'
       = [] ++ [File.mkLogCall "Engine" File.Info
                  "Could not open file: {}" "missing.txt"].
Proof.
  apply (proj1 (Read_unopened_empty 0 "missing.txt"
                  (File.mkWorld ∅ (fun _ => true) (fun _ => true) []))).
  left. reflexivity.
Defined.

(** X16.  [Write] does not look at [overwrite]: both values of the flag
    give the same result and the same world. *)
Theorem Write_ignores_overwrite (filepath content : string) (w : File.World) :
  File.Write filepath content true w = File.Write filepath content false w.
Proof.
  unfold File.Write.
  destruct (File.ofstream_open filepath w) as [[file w1] |] eqn:Hopen;
    [| reflexivity].
  unfold File.ofstream_open in Hopen.
  destruct (File.writable w filepath); [| discriminate].
  injection Hopen as <- <-. reflexivity.
Qed.

(** X17.  [Write] to a path that can be opened returns true and leaves
    exactly [content] in the file, whatever the file held before and
    whatever [overwrite] is; no other file changes and nothing is
    logged. *)
Theorem Write_replaces_contents (filepath content : string)
    (overwrite : bool) (w : File.World) :
  File.writable w filepath = true ->
  exists w' : File.World,
    File.Write filepath content overwrite w = (true, w')
    /\ File.files w' !! filepath = Some content
    /\ (forall other : string,
          other <> filepath -> File.files w' !! other = File.files w !! other)
    /\ File.logged w' = File.logged w.
Proof.
  intros Hw. rewrite (Write_open _ _ _ _ Hw). eexists. split; [reflexivity |].
  simpl. split; [apply lookup_insert_eq |]. split; [| reflexivity].
  intros other Hne. apply lookup_insert_ne. congruence.
Qed.

Lemma Write_replaces_contents_witness :
  exists w' : File.World,
    File.Write "notes.txt" "new" false
      (File.mkWorld {[ "notes.txt" := "old text" ]}
         (fun _ => true) (fun _ => true) []) = (true, w')
    /\ File.files w' !! "notes.txt" = Some "new"
    /\ (forall other : string,
          other <> "notes.txt" ->
          File.files w' !! other
          = ({[ "notes.txt" := "old text" ]} : gmap string string) !! other)
    /\ File.logged w' = [].
Proof.
  exact (Write_replaces_contents "notes.txt" "new" false
           (File.mkWorld {[ "notes.txt" := "old text" ]}
              (fun _ => true) (fun _ => true) []) eq_refl).
Defined.

(** X18.  [Write] to a path that cannot be opened returns false, changes
    no file and records one call of [Logger::Log]. *)
Theorem Write_unopened (filepath content : string) (overwrite : bool)
    (w : File.World) :
  File.writable w filepath = false ->
  exists w' : File.World,
    File.Write filepath content overwrite w = (false, w')
    /\ File.files w' = File.files w
    /\ File.logged w'
       = File.logged w
         ++ [File.mkLogCall "Engine" File.Info
               "Could not open file: {}" filepath].
Proof.
  intros Hw. rewrite (Write_closed _ _ _ _ Hw). eexists. repeat split.
Qed.

Lemma Write_unopened_witness :
  exists w' : File.World,
    File.Write "locked.txt" "new" true
      (File.mkWorld ∅ (fun _ => true) (fun _ => false) []) = (false, w')
    /\ File.files w' = ∅
    /\ File.logged w'
       = [] ++ [File.mkLogCall "Engine" File.Info
                  "Could not open file: {}" "locked.txt"].
Proof.
  exact (Write_unopened "locked.txt" "new" true
           (File.mkWorld ∅ (fun _ => true) (fun _ => false) []) eq_refl).
Defined.

(** X19.  What [Write] stores, [Read] returns with one line feed added:
    after writing [content] to a path that can be opened both ways,
    reading the path gives [content] followed by a line feed. *)
Theorem Write_then_Read (filepath content : string) (overwrite : bool)
    (w : File.World) :
  File.writable w filepath = true ->
  File.readable w filepath = true ->
  exists w1 : File.World,
    File.Write filepath content overwrite w = (true, w1)
    /\ forall fuel : nat,
         String.length content + 2 <= fuel ->
         File.Read fuel filepath w1
         = Some (content +:+ String "010"%char EmptyString, w1).
Proof.
  intros Hw Hr. rewrite (Write_open _ _ _ _ Hw).
  eexists. split; [reflexivity |].
  intros fuel Hfuel. apply Read_open; [| exact Hr | exact Hfuel].
  simpl. apply lookup_insert_eq.
Qed.

Lemma Write_then_Read_witness :
  exists w1 : File.World,
    File.Write "notes.txt" "hello" true
      (File.mkWorld ∅ (fun _ => true) (fun _ => true) []) = (true, w1)
    /\ forall fuel : nat,
         String.length "hello" + 2 <= fuel ->
         File.Read fuel "notes.txt" w1
         = Some ("hello" +:+ String "010"%char EmptyString, w1).
Proof.
  exact (Write_then_Read "notes.txt" "hello" true
           (File.mkWorld ∅ (fun _ => true) (fun _ => true) [])
           eq_refl eq_refl).
Defined.

(** X20.  [Exists] answers whether the path can be opened for writing,
    not whether a file is there: for such a path it returns true even
    when there was no file, and it leaves an empty file at the path,
    losing what the file held; otherwise it returns false and changes
    nothing.  It never logs. *)
Theorem Exists_opens_for_writing (filepath : string) (w : File.World) :
  fst (File.Exists filepath w) = File.writable w filepath
  /\ File.logged (snd (File.Exists filepath w)) = File.logged w
  /\ (File.writable w filepath = true ->
        File.files (snd (File.Exists filepath w)) !! filepath = Some ""
        /\ forall other : string,
             other <> filepath ->
             File.files (snd (File.Exists filepath w)) !! other
             = File.files w !! other)
  /\ (File.writable w filepath = false -> File.Exists filepath w = (false, w)).
Proof.
  destruct (File.writable w filepath) eqn:Hw.
  - rewrite (Exists_open _ _ Hw). simpl. repeat split.
    + apply lookup_insert_eq.
    + intros other Hne. apply lookup_insert_ne. congruence.
    + discriminate.
  - rewrite (Exists_closed _ _ Hw). simpl. repeat split; discriminate.
Qed.

Lemma Exists_opens_for_writing_witness :
  File.files
    (snd (File.Exists "notes.txt"
            (File.mkWorld {[ "notes.txt" := "kept?" ]}
               (fun _ => true) (fun _ => true) []))) !! "notes.txt"
  = Some "".
Proof.
  exact (proj1 (proj1 (proj2 (proj2
           (Exists_opens_for_writing "notes.txt"
              (File.mkWorld {[ "notes.txt" := "kept?" ]}
                 (fun _ => true) (fun _ => true) [])))) eq_refl)).
Defined.

(** X21.  [Exists] destroys what [Write] stored: after writing [content]
    and then asking whether the file exists, reading it gives a single
    line feed. *)
Theorem Exists_empties_written_file (filepath content : string)
    (overwrite : bool) (w : File.World) :
  File.writable w filepath = true ->
  File.readable w filepath = true ->
  exists w1 w2 : File.World,
    File.Write filepath content overwrite w = (true, w1)
    /\ File.Exists filepath w1 = (true, w2)
    /\ forall fuel : nat,
         2 <= fuel ->
         File.Read fuel filepath w2
         = Some (String "010"%char EmptyString, w2).
Proof.
  intros Hw Hr. rewrite (Write_open _ _ _ _ Hw).
  eexists. eexists. split; [reflexivity |]. split.
  - apply Exists_open. exact Hw.
  - intros fuel Hfuel.
    apply (Read_open fuel filepath ""); [| exact Hr | exact Hfuel].
    simpl. apply lookup_insert_eq.
Qed.

Lemma Exists_empties_written_file_witness :
  exists w1 w2 : File.World,
    File.Write "notes.txt" "hello" false
      (File.mkWorld ∅ (fun _ => true) (fun _ => true) []) = (true, w1)
    /\ File.Exists "notes.txt" w1 = (true, w2)
    /\ forall fuel : nat,
         2 <= fuel ->
         File.Read fuel "notes.txt" w2
         = Some (String "010"%char EmptyString, w2).
Proof.
  exact (Exists_empties_written_file "notes.txt" "hello" false
           (File.mkWorld ∅ (fun _ => true) (fun _ => true) [])
           eq_refl eq_refl).
Defined.

(** X22.  [Delete] returns true exactly when the path can be opened for
    writing, whether or not a file was there and whether or not
    [std::remove] succeeds.  When it returns true the file is gone if the
    removal succeeded, and is left empty if it failed; when it returns
    false nothing changes. *)
Theorem Delete_outcome (remove_ok : bool) (filepath : string)
    (w : File.World) :
  fst (File.Delete remove_ok filepath w) = File.writable w filepath
  /\ (File.writable w filepath = true -> remove_ok = true ->
        File.files (snd (File.Delete remove_ok filepath w))
        = delete filepath (File.files w))
  /\ (File.writable w filepath = true -> remove_ok = false ->
        File.files (snd (File.Delete remove_ok filepath w))
        = <[filepath := ""]> (File.files w))
  /\ (File.writable w filepath = false ->
        File.Delete remove_ok filepath w = (false, w)).
Proof.
  unfold File.Delete.
  destruct (File.writable w filepath) eqn:Hw.
  - rewrite (Exists_open _ _ Hw). simpl. repeat split.
    + intros _ ->. simpl. apply delete_insert_eq.
    + intros _ ->. reflexivity.
    + discriminate.
  - rewrite (Exists_closed _ _ Hw). simpl. repeat split; discriminate.
Qed.

Lemma Delete_outcome_witness :
  File.files
    (snd (File.Delete true "notes.txt"
            (File.mkWorld {[ "notes.txt" := "old" ]}
               (fun _ => true) (fun _ => true) [])))
  = delete "notes.txt"
      (File.files (File.mkWorld {[ "notes.txt" := "old" ]}
                     (fun _ => true) (fun _ => true) [])).
Proof.
  exact (proj1 (proj2 (Delete_outcome true "notes.txt"
                  (File.mkWorld {[ "notes.txt" := "old" ]}
                     (fun _ => true) (fun _ => true) [])))
           eq_refl eq_refl).
Defined.
